(** * rac_signal_source_symbol_tracer.py: the LLDB synthetic child provider

    The script is a plug-in of the LLDB debugger.  Everything it does is a
    sequence of calls into objects owned by the debugger ([lldb.debugger],
    the inspected [valobj], the [SBValue]s and [SBError]s it gets back), a
    little Python arithmetic on the answers, two attribute assignments on
    [self], and one [print].

    The embedding keeps these apart:
    - [value]: the Python values the script handles;
    - [prog]: the script's code as a tree of its effects (a call into the
      debugger, a read or write of an attribute of [self], a line written to
      the standard output, a raised exception);
    - [run]: the execution of such a tree against an arbitrary debugger
      ([host]), which threads the debugger's world, the attributes of [self],
      the standard output and a log of the calls made.

    The debugger itself is not part of the repository: theorems quantify over
    every [host]; [Lldb.lldb_host] is a small executable debugger used for
    the concrete runs. *)

From Stdlib Require Import ZArith Ascii String List Bool Lia.
From Stdlib Require Import DecimalString.
Import ListNotations.

Local Open Scope string_scope.
Local Open Scope Z_scope.

(** ** Python values *)

(** The classes of the [lldb] module whose instances reach the script. *)
Inductive lldb_class : Type :=
| SBDebugger | SBTarget | SBProcess | SBThread | SBFrame | SBValue | SBError.

(** A Python value: [None], a [bool], an [int] (unbounded), a [str], or an
    object of the debugger, known by its class and an opaque handle. *)
Inductive value : Type :=
| VNone
| VBool (b : bool)
| VInt (z : Z)
| VStr (s : string)
| VObj (c : lldb_class) (h : nat).

(** The exceptions that can occur: the two the Python fragment itself can
    raise, and whatever the debugger's bindings raise. *)
Inductive exc : Type :=
| TypeError
| AttributeError
| HostException (name : string).

(** ** Effects *)

(** What the script asks of the debugger: a method call on one of its
    objects ([recv.meth(args)]), or [str(v)] of one of its objects. *)
Inductive event : Type :=
| Call (recv : value) (meth : string) (args : list value)
| Str (v : value).

(** The two attributes an instance of the class has. *)
Inductive attr : Type :=
| a_valobj
| a_signalSourceMethodSymbol.

(** The attributes of [self]: absent until assigned. *)
Record instance : Type := mkInstance {
  valobj : option value;
  signalSourceMethodSymbol : option value
}.

Definition no_attributes : instance := mkInstance None None.

Definition getattr (a : attr) (o : instance) : option value :=
  match a with
  | a_valobj => valobj o
  | a_signalSourceMethodSymbol => signalSourceMethodSymbol o
  end.

Definition setattr (a : attr) (v : value) (o : instance) : instance :=
  match a with
  | a_valobj => mkInstance (Some v) (signalSourceMethodSymbol o)
  | a_signalSourceMethodSymbol => mkInstance (valobj o) (Some v)
  end.

(** A piece of Python code, as the tree of its effects. *)
Inductive prog (A : Type) : Type :=
| Ret (a : A)
| Raise (e : exc)
| Host (ev : event) (k : value -> prog A)
| GetAttr (a : attr) (k : value -> prog A)
| SetAttr (a : attr) (v : value) (k : prog A)
| Output (line : string) (k : prog A).

Arguments Ret {A} a.
Arguments Raise {A} e.
Arguments Host {A} ev k.
Arguments GetAttr {A} a k.
Arguments SetAttr {A} a v k.
Arguments Output {A} line k.

Fixpoint bind {A B : Type} (p : prog A) (f : A -> prog B) : prog B :=
  match p with
  | Ret a => f a
  | Raise e => Raise e
  | Host ev k => Host ev (fun v => bind (k v) f)
  | GetAttr a k => GetAttr a (fun v => bind (k v) f)
  | SetAttr a v k => SetAttr a v (bind k f)
  | Output l k => Output l (bind k f)
  end.

Notation "x <- p ;; q" := (bind p (fun x => q))
  (at level 61, p at next level, right associativity).
Notation "p ;;; q" := (bind p (fun _ => q))
  (at level 61, right associativity).

Definition call (recv : value) (meth : string) (args : list value) : prog value :=
  Host (Call recv meth args) Ret.
Definition self_get (a : attr) : prog value := GetAttr a Ret.
Definition self_set (a : attr) (v : value) : prog unit := SetAttr a v (Ret tt).
Definition print_line (line : string) : prog unit := Output line (Ret tt).

(** ** Execution *)

Section Run.

(** The debugger's side: its state, and how it answers an event. *)
Variable W : Type.

Definition host : Type := event -> W -> (exc + value) * W.

Record state : Type := mkState {
  self : instance;
  world : W;
  stdout : list string;
  calls : list (event * (exc + value))
}.

Definition with_self (o : instance) (s : state) : state :=
  mkState o (world s) (stdout s) (calls s).

Definition with_line (l : string) (s : state) : state :=
  mkState (self s) (world s) (stdout s ++ [l]) (calls s).

(** The state after the debugger answered [ev] with [r], leaving [w]. *)
Definition answered (ev : event) (r : exc + value) (w : W) (s : state) : state :=
  mkState (self s) w (stdout s) (calls s ++ [(ev, r)]).

Variable h : host.

(** An exception of the debugger or of the fragment ends the run where it
    occurs (the script has no [try]); the state reached is kept. *)
Fixpoint run {A : Type} (p : prog A) (s : state) : (exc + A) * state :=
  match p with
  | Ret a => (inr a, s)
  | Raise e => (inl e, s)
  | Host ev k =>
      let (r, w) := h ev (world s) in
      match r with
      | inl e => (inl e, answered ev r w s)
      | inr v => run (k v) (answered ev r w s)
      end
  | GetAttr a k =>
      match getattr a (self s) with
      | None => (inl AttributeError, s)
      | Some v => run (k v) s
      end
  | SetAttr a v k => run k (with_self (setattr a v (self s)) s)
  | Output l k => run k (with_line l s)
  end.

End Run.

Arguments mkState {W} self world stdout calls.
Arguments self {W} s.
Arguments world {W} s.
Arguments stdout {W} s.
Arguments calls {W} s.
Arguments with_self {W} o s.
Arguments with_line {W} l s.
Arguments answered {W} ev r w s.
Arguments run {W} h {A} p s.

(** ** The Python fragment the script uses *)

(** The [int] a value is, if it is one ([bool] is a subclass of [int]). *)
Definition as_int (v : value) : option Z :=
  match v with
  | VInt z => Some z
  | VBool b => Some (if b then 1 else 0)
  | _ => None
  end.

(** [a + b]: addition of [int]s, concatenation of [str]s; the objects of the
    debugger define no [__add__], so any other pair is a [TypeError]. *)
Definition py_add (a b : value) : prog value :=
  match as_int a, as_int b with
  | Some x, Some y => Ret (VInt (x + y))
  | _, _ =>
      match a, b with
      | VStr s, VStr t => Ret (VStr (s ++ t))
      | _, _ => Raise TypeError
      end
  end.

(** [v is not None] *)
Definition is_not_None (v : value) : bool :=
  match v with
  | VNone => false
  | _ => true
  end.

(** [str(v)]: computed by Python for its own values, asked of the debugger
    for one of its objects (whose [__str__] must give a [str]). *)
Definition py_str (v : value) : prog string :=
  match v with
  | VNone => Ret "None"
  | VBool b => Ret (if b then "True" else "False")
  | VInt z => Ret (NilZero.string_of_int (Z.to_int z))
  | VStr s => Ret s
  | VObj _ _ =>
      Host (Str v) (fun r => match r with VStr s => Ret s | _ => Raise TypeError end)
  end.

(** [fmt] with its first [%s] replaced by [arg]. *)
Fixpoint subst_percent_s (fmt arg : string) : string :=
  match fmt with
  | String "%"%char (String "s"%char rest) => arg ++ rest
  | String c rest => String c (subst_percent_s rest arg)
  | EmptyString => EmptyString
  end.

(** [fmt % v], for a [fmt] with one [%s]. *)
Definition py_format (fmt : string) (v : value) : prog string :=
  s <- py_str v ;; Ret (subst_percent_s fmt s).

(** ** The script *)

(** [lldb.debugger] *)
Definition lldb_debugger : value := VObj SBDebugger 0.

Definition __lldb_init_module (debugger dict : value) : prog value :=
  call lldb_debugger "HandleCommand"
    [VStr ("type synthetic add RACPassthroughSubscriber --python-class " ++
           "rac_signal_source_symbol_tracer.RACSignalSourceSymbolTracer")] ;;;
  Ret VNone.

(** Lines 10-16.  [value.GetError()] is called anew in each of the three
    places that mention it, and the [and]s stop at their first false
    operand. *)
Definition evaluateExpressionValue (expression : string) (printErrors : bool)
  : prog value :=
  target <- call lldb_debugger "GetSelectedTarget" [] ;;
  process <- call target "GetProcess" [] ;;
  thread <- call process "GetSelectedThread" [] ;;
  frame <- call thread "GetSelectedFrame" [] ;;
  value <- call frame "EvaluateExpression" [VStr expression] ;;
  (if printErrors then
     e1 <- call value "GetError" [] ;;
     if is_not_None e1 then
       e2 <- call value "GetError" [] ;;
       s <- py_str e2 ;;
       if negb (s =? "success")%string then
         e3 <- call value "GetError" [] ;;
         line <- py_str e3 ;;
         print_line line
       else Ret tt
     else Ret tt
   else Ret tt) ;;;
  Ret value.

Module RACSignalSourceSymbolTracer.

Definition SIGNAL_SOURCE_SYMBOL_CHILD_NAME : string := "signalSourceSymbol".

(** Lines 22-25.  The right-hand side of the second assignment is evaluated
    in Python's order: the receiver [self.valobj], then the arguments (the
    second one reads [self.valobj] again and calls [GetName]), then the
    call. *)
Definition __init__ (valobj dict : value) : prog value :=
  self_set a_valobj valobj ;;;
  receiver <- self_get a_valobj ;;
  named <- self_get a_valobj ;;
  name <- call named "GetName" [] ;;
  expression <- py_format "(NSString *)[%s signalInitializationSourceSymbol]" name ;;
  symbol <- call receiver "CreateValueFromExpression"
              [VStr SIGNAL_SOURCE_SYMBOL_CHILD_NAME; VStr expression] ;;
  self_set a_signalSourceMethodSymbol symbol ;;;
  Ret VNone.

Definition num_children : prog value :=
  v <- self_get a_valobj ;;
  n <- call v "GetNumChildren" [] ;;
  py_add n (VInt 1).

(** The debugger passes the child's name as a [str]. *)
Definition get_child_index (name : string) : prog value :=
  if (name =? SIGNAL_SOURCE_SYMBOL_CHILD_NAME)%string then
    Ret (VInt 0)
  else
    v <- self_get a_valobj ;;
    r <- call v "GetChildMemberWithName" [VStr name] ;;
    py_add r (VInt 1).

(** The debugger passes the index as an [int]. *)
Definition get_child_at_index (index : Z) : prog value :=
  if index =? 0 then
    self_get a_signalSourceMethodSymbol
  else
    v <- self_get a_valobj ;;
    call v "GetChildAtIndex" [VInt (index - 1)].

Definition update : prog value := Ret VNone.

Definition has_children : prog value := Ret (VBool true).

End RACSignalSourceSymbolTracer.

(** ** A small debugger to run the script against

    Enough of LLDB's scripting interface to execute every line of the
    script: values with a name, children, the frame they were read in and an
    error text; frames in which the expression can or cannot be evaluated;
    the selected frame.  Return types follow LLDB's documented API:
    [GetNumChildren] and [GetIndexOfChildWithName] give an [int],
    [GetChildAtIndex], [GetChildMemberWithName], [EvaluateExpression] and
    [CreateValueFromExpression] give an [SBValue] (an invalid one when there
    is nothing to give), [GetError] gives an [SBError] whose [str] is
    [success] when there was none. *)
Module Lldb.

Record sbvalue : Type := mkValue {
  sb_name : option string;
  sb_children : list nat;
  sb_frame : nat;
  sb_error : string
}.

Record lldb_world : Type := mkWorld {
  values : list sbvalue;       (* a handle is a position in this list *)
  frames : list bool;          (* can the expression be evaluated there? *)
  selected_frame : nat;
  commands : list string
}.

Definition UINT32_MAX : Z := 4294967295.

(** The handle of an invalid [SBValue]: one past the values that exist. *)
Definition invalid (w : lldb_world) : nat := length (values w).

Definition error_of (w : lldb_world) (v : nat) : string :=
  match nth_error (values w) v with
  | Some d => sb_error d
  | None => "error: invalid value"
  end.

Definition is_named (w : lldb_world) (n : string) (c : nat) : bool :=
  match nth_error (values w) c with
  | Some d =>
      match sb_name d with
      | Some m => (m =? n)%string
      | None => false
      end
  | None => false
  end.

Fixpoint index_named (w : lldb_world) (n : string) (cs : list nat) (i : Z) : Z :=
  match cs with
  | [] => UINT32_MAX
  | c :: cs' => if is_named w n c then i else index_named w n cs' (i + 1)
  end.

(** Evaluation of an expression in frame [f]: a new value named [name],
    carrying the outcome. *)
Definition evaluate (name : option string) (f : nat) (w : lldb_world)
  : (exc + value) * lldb_world :=
  let outcome :=
    if nth f (frames w) false then "success"
    else "error: no known method '-signalInitializationSourceSymbol'" in
  (inr (VObj SBValue (invalid w)),
   mkWorld (values w ++ [mkValue name [] f outcome])
           (frames w) (selected_frame w) (commands w)).

Definition value_method (v : nat) (meth : string) (args : list value)
  (w : lldb_world) : (exc + value) * lldb_world :=
  match nth_error (values w) v with
  | None =>
      (* an invalid SBValue answers every query with nothing *)
      if (meth =? "GetNumChildren")%string then (inr (VInt 0), w)
      else if (meth =? "GetName")%string then (inr VNone, w)
      else if (meth =? "GetError")%string then (inr (VObj SBError v), w)
      else (inr (VObj SBValue (invalid w)), w)
  | Some d =>
      if (meth =? "GetName")%string then
        (inr (match sb_name d with Some n => VStr n | None => VNone end), w)
      else if (meth =? "GetNumChildren")%string then
        (inr (VInt (Z.of_nat (length (sb_children d)))), w)
      else if (meth =? "GetError")%string then
        (inr (VObj SBError v), w)
      else if (meth =? "GetChildAtIndex")%string then
        match args with
        | [VInt i] =>
            if (i <? 0) || (UINT32_MAX <? i) then
              (inl (HostException "OverflowError"), w)
            else
              (inr (VObj SBValue (nth (Z.to_nat i) (sb_children d) (invalid w))), w)
        | _ => (inl TypeError, w)
        end
      else if (meth =? "GetChildMemberWithName")%string then
        match args with
        | [VStr n] =>
            (inr (VObj SBValue
                    (match find (is_named w n) (sb_children d) with
                     | Some c => c
                     | None => invalid w
                     end)), w)
        | _ => (inl TypeError, w)
        end
      else if (meth =? "GetIndexOfChildWithName")%string then
        match args with
        | [VStr n] => (inr (VInt (index_named w n (sb_children d) 0)), w)
        | _ => (inl TypeError, w)
        end
      else if (meth =? "CreateValueFromExpression")%string then
        match args with
        | [VStr n; VStr _] => evaluate (Some n) (sb_frame d) w
        | _ => (inl TypeError, w)
        end
      else (inl AttributeError, w)
  end.

Definition lldb_host : host lldb_world :=
  fun ev w =>
    match ev with
    | Str (VObj SBError v) => (inr (VStr (error_of w v)), w)
    | Str _ => (inr (VStr "<lldb object>"), w)
    | Call (VObj SBDebugger _) meth args =>
        if (meth =? "GetSelectedTarget")%string then (inr (VObj SBTarget 0), w)
        else if (meth =? "HandleCommand")%string then
          match args with
          | [VStr c] =>
              (inr VNone,
               mkWorld (values w) (frames w) (selected_frame w) (commands w ++ [c]))
          | _ => (inl TypeError, w)
          end
        else (inl AttributeError, w)
    | Call (VObj SBTarget _) meth _ =>
        if (meth =? "GetProcess")%string then (inr (VObj SBProcess 0), w)
        else (inl AttributeError, w)
    | Call (VObj SBProcess _) meth _ =>
        if (meth =? "GetSelectedThread")%string then (inr (VObj SBThread 0), w)
        else (inl AttributeError, w)
    | Call (VObj SBThread _) meth _ =>
        if (meth =? "GetSelectedFrame")%string then
          (inr (VObj SBFrame (selected_frame w)), w)
        else (inl AttributeError, w)
    | Call (VObj SBFrame f) meth args =>
        if (meth =? "EvaluateExpression")%string then
          match args with
          | [VStr _] => evaluate (Some "$0") f w
          | _ => (inl TypeError, w)
          end
        else (inl AttributeError, w)
    | Call (VObj SBValue v) meth args => value_method v meth args w
    | Call _ _ _ => (inl AttributeError, w)
    end.

(** A paused process showing a subscriber [self] (handle 0) with two fields
    [a] and [b] (handles 1 and 2), read in frame 0; frame 1 is selected.
    [can0] and [can1] say whether the expression evaluates in each frame. *)
Definition subscriber_world (can0 can1 : bool) : lldb_world :=
  mkWorld
    [ mkValue (Some "self") [1%nat; 2%nat] 0 "success";
      mkValue (Some "a") [] 0 "success";
      mkValue (Some "b") [] 0 "success" ]
    [can0; can1] 1 [].

Definition subscriber : value := VObj SBValue 0.

(** The frame a value was read or evaluated in. *)
Definition frame_of (w : lldb_world) (v : value) : option nat :=
  match v with
  | VObj SBValue x => option_map sb_frame (nth_error (values w) x)
  | _ => None
  end.

(** Does the value carry an error, that is, is [str(v.GetError())] other
    than [success]? *)
Definition failed (w : lldb_world) (v : value) : bool :=
  match v with
  | VObj SBValue x => negb (error_of w x =? "success")%string
  | _ => false
  end.

(** The state in which the debugger builds an instance: no attribute yet,
    nothing printed, no call made. *)
Definition fresh (w : lldb_world) : state lldb_world :=
  mkState no_attributes w [] [].

End Lldb.


(** ** Vocabulary of the statements *)

Import RACSignalSourceSymbolTracer.

(** [n] calls of [update], one after the other. *)
Fixpoint refreshes (n : nat) : prog value :=
  match n with
  | O => Ret VNone
  | S n' => update ;;; refreshes n'
  end.

(** Was the method [meth] called in this log? *)
Definition made_call (meth : string) (log : list (event * (exc + value))) : bool :=
  existsb (fun entry =>
             match fst entry with
             | Call _ m _ => (m =? meth)%string
             | Str _ => false
             end) log.

(** Something was written to the standard output between two states. *)
Definition reported {W : Type} (before after : state W) : Prop :=
  stdout after <> stdout before.

(** [str(v)] for the values Python prints by itself. *)
Definition text_of (v : value) : option string :=
  match v with
  | VNone => Some "None"
  | VBool b => Some (if b then "True" else "False")
  | VInt z => Some (NilZero.string_of_int (Z.to_int z))
  | VStr s => Some s
  | VObj _ _ => None
  end.


(** The code [p], run from [s], prints nothing and asks the debugger at
    most [n] things. *)
Definition asks_at_most {W A : Type} (n : nat) (h : host W) (p : prog A)
  (s : state W) : Prop :=
  stdout (snd (run h p s)) = stdout s /\
  exists l : list (event * (exc + value)),
    calls (snd (run h p s)) = (calls s ++ l)%list /\ (length l <= n)%nat.


(** The expression the constructor has evaluated for a handle whose name
    prints as [t]. *)
Definition source_symbol_expression (t : string) : string :=
  subst_percent_s "(NSString *)[%s signalInitializationSourceSymbol]" t.

Arguments source_symbol_expression : simpl never.

(** The state of the small debugger once the subscriber's instance is
    built. *)
Definition built (can0 can1 : bool) : state Lldb.lldb_world :=
  snd (run Lldb.lldb_host (__init__ Lldb.subscriber VNone)
         (Lldb.fresh (Lldb.subscriber_world can0 can1))).

(** * Theorems *)

Section Execution.

Context {W : Type} (h : host W).

Lemma run_bind {A B : Type} (p : prog A) (f : A -> prog B) (s : state W) :
  run h (bind p f) s =
  match run h p s with
  | (inl e, s') => (inl e, s')
  | (inr a, s') => run h (f a) s'
  end.
Proof.
  revert s.
  induction p as [a | e | ev k IH | a k IH | a v k IH | l k IH]; intro s; simpl.
  - reflexivity.
  - reflexivity.
  - destruct (h ev (world s)) as [[e | v] w]; [reflexivity | apply IH].
  - destruct (getattr a (self s)); [apply IH | reflexivity].
  - apply IH.
  - apply IH.
Qed.

(** A call into the debugger hands its answer through, whatever it is. *)
Lemma run_call (recv : value) (meth : string) (args : list value)
  (s : state W) (r : exc + value) (w : W) :
  h (Call recv meth args) (world s) = (r, w) ->
  run h (call recv meth args) s = (r, answered (Call recv meth args) r w s).
Proof.
  intro Hh. unfold call. simpl. rewrite Hh. destruct r; reflexivity.
Qed.

Lemma answered_self (ev : event) (r : exc + value) (w : W) (s : state W) :
  self (answered ev r w s) = self s.
Proof. reflexivity. Qed.

Lemma refreshes_skip (n : nat) (s : state W) :
  run h (refreshes n) s = (inr VNone, s).
Proof.
  induction n as [| n IH]; simpl; [reflexivity | exact IH].
Qed.

(** For an index other than 0 the method is exactly the debugger's
    [GetChildAtIndex] at [index - 1]. *)
Lemma get_child_at_index_delegates (s : state W) (v : value) (index : Z)
  (r : exc + value) (w : W) :
  valobj (self s) = Some v ->
  index <> 0 ->
  h (Call v "GetChildAtIndex" [VInt (index - 1)]) (world s) = (r, w) ->
  run h (get_child_at_index index) s =
  (r, answered (Call v "GetChildAtIndex" [VInt (index - 1)]) r w s).
Proof.
  intros Hv Hi Hh. unfold get_child_at_index.
  destruct (Z.eqb_spec index 0) as [E | _]; [contradiction |].
  simpl. rewrite Hv. simpl. rewrite Hh. destruct r; reflexivity.
Qed.

Lemma get_child_at_index_0 (s : state W) :
  run h (get_child_at_index 0) s =
  match signalSourceMethodSymbol (self s) with
  | Some symbol => (inr symbol, s)
  | None => (inl AttributeError, s)
  end.
Proof.
  unfold get_child_at_index. simpl.
  destruct (signalSourceMethodSymbol (self s)); reflexivity.
Qed.

End Execution.

(** Destructs the next answer of the debugger, or the next value whose
    shape the code looks at. *)
Ltac next_answer :=
  match goal with
  | |- context [match ?x with (_, _) => _ end] =>
      match x with
      | context [match _ with _ => _ end] => fail 1
      | _ => let E := fresh "Ans" in destruct x as [[?e | ?v] ?w] eqn:E
      end
  | |- context [match ?x with VNone => _ | _ => _ end] =>
      match x with
      | context [match _ with _ => _ end] => fail 1
      | _ => destruct x
      end
  | |- context [if ?b then _ else _] =>
      match b with
      | context [match _ with _ => _ end] => fail 1
      | _ => destruct b
      end
  end.

Ltac run_all :=
  unfold py_format, py_str, py_add, call, self_get, self_set, print_line;
  simpl; repeat (next_answer; simpl).

Section Claims.

Context {W : Type}.

Lemma py_add_keeps_state (h : host W) (a b : value) (s : state W) :
  snd (run h (py_add a b) s) = s.
Proof.
  unfold py_add.
  destruct (as_int a), (as_int b); try reflexivity; destruct a; try reflexivity;
    destruct b; reflexivity.
Qed.

(** A run of the constructor that returns: what it returns, the attributes
    it leaves, and the calls it made. *)
Lemma init_returns (h : host W) (v dict res : value) (s s1 : state W) :
  run h (__init__ v dict) s = (inr res, s1) ->
  res = VNone /\
  stdout s1 = stdout s /\
  exists (l : list (event * (exc + value))) (expression : string) (symbol : value),
    self s1 = mkInstance (Some v) (Some symbol) /\
    calls s1 = (calls s ++ l ++
      [(Call v "CreateValueFromExpression"
          [VStr SIGNAL_SOURCE_SYMBOL_CHILD_NAME; VStr expression], inr symbol)])%list /\
    made_call "GetSelectedFrame" l = false.
Proof.
  unfold __init__. run_all; intro H; inversion H; subst; clear H;
    (split; [reflexivity | split; [reflexivity |]]).
  all: simpl; repeat rewrite <- app_assoc; simpl.
  all: match goal with
       | |- context [(calls _ ++ ?L)%list = _] => exists (removelast L)
       end; simpl.
  all: do 2 eexists; split; [reflexivity | split; reflexivity].
Qed.

(** The handle is an attribute of [self] from the first line of the
    constructor on, whether or not the rest of it returns. *)
Lemma init_stores_handle (h : host W) (v dict : value) (s : state W) :
  valobj (self (snd (run h (__init__ v dict) s))) = Some v.
Proof.
  unfold __init__. run_all; reflexivity.
Qed.

(** ** The accessors *)

(** C5: [num_children] returns the count the underlying handle reports,
    plus 1, for every handle and every debugger; it adds no failure of its
    own: an exception of [GetNumChildren] is the only one it can end in,
    and it is handed through as it is. *)
Theorem num_children_is_underlying_count_plus_1
  (h : host W) (s : state W) (v : value) (r : exc + value) (w : W) :
  valobj (self s) = Some v ->
  h (Call v "GetNumChildren" []) (world s) = (r, w) ->
  (forall n : Z, r = inr (VInt n) ->
     run h num_children s =
     (inr (VInt (n + 1)), answered (Call v "GetNumChildren" []) r w s)) /\
  (forall e : exc, r = inl e ->
     run h num_children s =
     (inl e, answered (Call v "GetNumChildren" []) r w s)).
Proof.
  intros Hv Hh. unfold num_children.
  split; intros x ->; simpl; rewrite Hv; simpl; rewrite Hh; reflexivity.
Qed.

(** C6: [get_child_index("signalSourceSymbol")] returns 0, for every
    instance (whatever its attributes), every debugger and every state of
    the underlying object, and asks the debugger nothing. *)
Theorem get_child_index_of_synthesized_name (h : host W) (s : state W) :
  run h (get_child_index "signalSourceSymbol") s = (inr (VInt 0), s).
Proof. reflexivity. Qed.

(** C4: on an instance the constructor has built, [get_child_at_index(0)]
    returns the value the constructor obtained from
    [CreateValueFromExpression] (whatever the debugger and its world have
    become since), and for every [index >= 1] (so for every index in
    [1, ChildCount())) [get_child_at_index(index)] is the answer of the
    underlying handle's [GetChildAtIndex(index - 1)]. *)
Theorem get_child_at_index_of_constructed
  (h0 h : host W) (s0 s1 s : state W) (v dict res : value) :
  run h0 (__init__ v dict) s0 = (inr res, s1) ->
  self s = self s1 ->
  (exists (expression : string) (symbol : value),
     last (calls s1) (Str VNone, inl TypeError) =
       (Call v "CreateValueFromExpression"
          [VStr "signalSourceSymbol"; VStr expression], inr symbol) /\
     run h (get_child_at_index 0) s = (inr symbol, s)) /\
  (forall (index : Z) (r : exc + value) (w : W),
     1 <= index ->
     h (Call v "GetChildAtIndex" [VInt (index - 1)]) (world s) = (r, w) ->
     run h (get_child_at_index index) s =
     (r, answered (Call v "GetChildAtIndex" [VInt (index - 1)]) r w s)).
Proof.
  intros Hinit Hself.
  destruct (init_returns _ _ _ _ _ _ Hinit)
    as (_ & _ & l & expression & symbol & Hattrs & Hcalls & _).
  split.
  - exists expression, symbol. split.
    + rewrite Hcalls, app_assoc. apply last_last.
    + rewrite get_child_at_index_0, Hself, Hattrs. reflexivity.
  - intros index r w Hi Hh.
    apply get_child_at_index_delegates; [| lia | exact Hh].
    rewrite Hself, Hattrs. reflexivity.
Qed.

(** C7: [get_child_at_index] checks no bound.  For every [index] other than
    0, negative or beyond the child count included, it asks the underlying
    handle for its child at [index - 1] and returns the answer as it is: the
    one call made is that one, and the method ends in an exception only when
    that call did, and with the same one. *)
Theorem get_child_at_index_checks_no_bound
  (h : host W) (s : state W) (v : value) (index : Z) (r : exc + value) (w : W) :
  valobj (self s) = Some v ->
  index <> 0 ->
  h (Call v "GetChildAtIndex" [VInt (index - 1)]) (world s) = (r, w) ->
  fst (run h (get_child_at_index index) s) = r /\
  calls (snd (run h (get_child_at_index index) s)) =
    (calls s ++ [(Call v "GetChildAtIndex" [VInt (index - 1)], r)])%list /\
  (forall e : exc,
     fst (run h (get_child_at_index index) s) = inl e -> r = inl e).
Proof.
  intros Hv Hi Hh.
  rewrite (get_child_at_index_delegates h s v index r w Hv Hi Hh). simpl.
  repeat split. intros e He. exact He.
Qed.

(** C8: [update] does nothing: it returns [None] and leaves the whole state
    as it is, so does any number of [update]s, and [get_child_at_index(0)]
    after them returns what it returns without them, the attribute set by
    the constructor, whatever the debugger [h'] and its world [w'] have
    become in between. *)
Theorem update_is_a_no_op
  (h h' : host W) (n : nat) (s : state W) (w' : W) :
  run h update s = (inr VNone, s) /\
  run h (refreshes n) s = (inr VNone, s) /\
  run h (refreshes n ;;; get_child_at_index 0) s =
  run h (get_child_at_index 0) s /\
  fst (run h' (refreshes n ;;; get_child_at_index 0)
         (mkState (self s) w' (stdout s) (calls s))) =
  fst (run h (get_child_at_index 0) s).
Proof.
  split; [reflexivity |].
  split; [apply refreshes_skip |].
  split.
  - rewrite run_bind, refreshes_skip. reflexivity.
  - rewrite run_bind, refreshes_skip, !get_child_at_index_0. simpl.
    destruct (signalSourceMethodSymbol (self s)); reflexivity.
Qed.

(** C9: [has_children] returns [True] for every instance, whatever the
    underlying object's children and whatever the constructor's evaluation
    gave, and changes nothing. *)
Theorem has_children_is_True (h : host W) (s : state W) :
  run h has_children s = (inr (VBool true), s).
Proof. reflexivity. Qed.

(** C10: none of the five accessors assigns an attribute of [self]: after
    each of them, returned or raised, the instance holds the handle and the
    synthesized field it held before. *)
Theorem accessors_keep_the_instance
  (h : host W) (s : state W) (name : string) (index : Z) :
  self (snd (run h num_children s)) = self s /\
  self (snd (run h (get_child_index name) s)) = self s /\
  self (snd (run h (get_child_at_index index) s)) = self s /\
  self (snd (run h update s)) = self s /\
  self (snd (run h has_children s)) = self s.
Proof.
  repeat split.
  - unfold num_children. simpl. destruct (valobj (self s)); [| reflexivity].
    simpl. destruct (h _ _) as [[e | n] w]; [reflexivity |].
    rewrite py_add_keeps_state. reflexivity.
  - unfold get_child_index.
    destruct (name =? SIGNAL_SOURCE_SYMBOL_CHILD_NAME)%string; [reflexivity |].
    simpl. destruct (valobj (self s)); [| reflexivity].
    simpl. destruct (h _ _) as [[e | r] w]; [reflexivity |].
    rewrite py_add_keeps_state. reflexivity.
  - unfold get_child_at_index. destruct (index =? 0); simpl.
    + destruct (signalSourceMethodSymbol (self s)); reflexivity.
    + destruct (valobj (self s)); [| reflexivity].
      simpl. destruct (h _ _) as [[e | r] w]; reflexivity.
Qed.

(** ** Evaluation of the expression *)

(** Whatever the debugger answers, the constructor calls neither
    [GetSelectedFrame] nor [EvaluateExpression]. *)
Lemma init_calls (h : host W) (v dict : value) (s : state W) :
  exists l : list (event * (exc + value)),
    calls (snd (run h (__init__ v dict) s)) = (calls s ++ l)%list /\
    made_call "GetSelectedFrame" l = false /\
    made_call "EvaluateExpression" l = false.
Proof.
  unfold __init__. run_all; repeat rewrite <- app_assoc; simpl.
  all: match goal with
       | |- context [(calls _ ++ ?L)%list = _] => exists L
       end; repeat split.
Qed.

(** C2, as the code has it: every call of [evaluateExpressionValue] that
    returns has asked the debugger, during that call and in this order, for
    the selected target, its process, the process's selected thread and the
    thread's selected frame, has evaluated the expression on the frame it
    was just given, and returns that evaluation's value.  The constructor
    does not go that way: whatever the debugger answers, it calls neither
    [GetSelectedFrame] nor [EvaluateExpression]; its evaluation is the
    handle's own [CreateValueFromExpression]. *)
Theorem evaluateExpressionValue_resolves_the_frame_anew
  (h : host W) (s : state W) (expression : string) (printErrors : bool)
  (valobj dict : value) :
  (forall (v : value) (s' : state W),
     run h (evaluateExpressionValue expression printErrors) s = (inr v, s') ->
     exists (target process thread frame : value)
            (rest : list (event * (exc + value))),
       calls s' =
         (calls s ++
          [(Call lldb_debugger "GetSelectedTarget" [], inr target);
           (Call target "GetProcess" [], inr process);
           (Call process "GetSelectedThread" [], inr thread);
           (Call thread "GetSelectedFrame" [], inr frame);
           (Call frame "EvaluateExpression" [VStr expression], inr v)]
          ++ rest)%list) /\
  (exists l : list (event * (exc + value)),
     calls (snd (run h (__init__ valobj dict) s)) = (calls s ++ l)%list /\
     made_call "GetSelectedFrame" l = false /\
     made_call "EvaluateExpression" l = false).
Proof.
  split; [| apply init_calls].
  intros v s'. unfold evaluateExpressionValue.
  run_all; intro H; inversion H; subst; clear H; simpl;
    repeat rewrite <- app_assoc; simpl.
  all: do 4 eexists.
  all: match goal with
       | |- context [(calls _ ++ ?L)%list = _] => exists (skipn 5 L)
       end; reflexivity.
Qed.

(** C3, as the code has it: when the debugger answers the constructor's two
    calls (an evaluation that fails is answered with a value that carries
    the error), the constructor returns, writes nothing to the standard
    output, and stores the handle and the value it was given, error-valued
    or not; from then on [has_children] returns [True] and
    [get_child_at_index(0)] returns that value. *)
Theorem init_keeps_the_value_and_prints_nothing
  (h h' : host W) (s : state W) (v dict name symbol : value) (t : string)
  (w1 w2 : W) :
  h (Call v "GetName" []) (world s) = (inr name, w1) ->
  text_of name = Some t ->
  h (Call v "CreateValueFromExpression"
       [VStr "signalSourceSymbol"; VStr (source_symbol_expression t)]) w1 =
    (inr symbol, w2) ->
  fst (run h (__init__ v dict) s) = inr VNone /\
  self (snd (run h (__init__ v dict) s)) = mkInstance (Some v) (Some symbol) /\
  stdout (snd (run h (__init__ v dict) s)) = stdout s /\
  (forall s' : state W,
     self s' = self (snd (run h (__init__ v dict) s)) ->
     run h' has_children s' = (inr (VBool true), s') /\
     run h' (get_child_at_index 0) s' = (inr symbol, s')).
Proof.
  intros Hname Htext Hcreate.
  assert (Hrun : run h (__init__ v dict) s =
                 (inr VNone,
                  mkState (mkInstance (Some v) (Some symbol)) w2 (stdout s)
                    ((calls s ++ [(Call v "GetName" [], inr name)]) ++
                     [(Call v "CreateValueFromExpression"
                         [VStr "signalSourceSymbol";
                          VStr (source_symbol_expression t)], inr symbol)]))).
  { unfold __init__, py_format, py_str, call, self_set, self_get.
    change (subst_percent_s "(NSString *)[%s signalInitializationSourceSymbol]")
      with source_symbol_expression.
    simpl. rewrite Hname.
    destruct name; simpl in Htext; inversion Htext; subst; simpl;
      unfold SIGNAL_SOURCE_SYMBOL_CHILD_NAME; rewrite Hcreate; reflexivity. }
  rewrite Hrun. do 3 (split; [reflexivity |]).
  intros s' Hs'. split; [reflexivity |].
  rewrite get_child_at_index_0, Hs'. reflexivity.
Qed.

(** How [get_child_index] treats a name other than that of the synthesized
    field: it adds 1 to whatever [GetChildMemberWithName] answers.  An
    [int] answer would be shifted by one; the [SBValue] that LLDB's
    [GetChildMemberWithName] answers with cannot be added to. *)
Lemma get_child_index_adds_1 (h : host W) (s : state W) (v r : value)
  (name : string) (w : W) :
  valobj (self s) = Some v ->
  (name =? SIGNAL_SOURCE_SYMBOL_CHILD_NAME)%string = false ->
  h (Call v "GetChildMemberWithName" [VStr name]) (world s) = (inr r, w) ->
  run h (get_child_index name) s =
  run h (py_add r (VInt 1))
    (answered (Call v "GetChildMemberWithName" [VStr name]) (inr r) w s).
Proof.
  intros Hv Hname Hh. unfold get_child_index. rewrite Hname.
  simpl. rewrite Hv. simpl. rewrite Hh. reflexivity.
Qed.

Lemma get_child_index_of_a_child_value (h : host W) (s : state W) (v : value)
  (name : string) (c : lldb_class) (x : nat) (w : W) :
  valobj (self s) = Some v ->
  (name =? SIGNAL_SOURCE_SYMBOL_CHILD_NAME)%string = false ->
  h (Call v "GetChildMemberWithName" [VStr name]) (world s) = (inr (VObj c x), w) ->
  fst (run h (get_child_index name) s) = inl TypeError.
Proof.
  intros Hv Hname Hh.
  rewrite (get_child_index_adds_1 h s v (VObj c x) name w Hv Hname Hh).
  reflexivity.
Qed.

End Claims.

(** ** Runs on the small debugger *)

(** C1: on the subscriber with the fields [a] and [b], the underlying
    handle finds [b] at index 1 ([GetIndexOfChildWithName]), so
    [get_child_index("b")] should be 2; the method calls
    [GetChildMemberWithName] instead, is given the child itself, and ends in
    a [TypeError] on adding 1 to it. *)
Theorem get_child_index_of_field_b :
  fst (run Lldb.lldb_host
         (call Lldb.subscriber "GetIndexOfChildWithName" [VStr "b"])
         (built true true)) = inr (VInt 1) /\
  fst (run Lldb.lldb_host
         (call Lldb.subscriber "GetChildMemberWithName" [VStr "b"])
         (built true true)) = inr (VObj SBValue 2) /\
  fst (run Lldb.lldb_host (get_child_index "b") (built true true)) =
    inl TypeError.
Proof. repeat split. Qed.

(** C2, counterexample: frame 0, in which the subscriber was read, cannot
    evaluate the expression and frame 1, the selected one, can.  The
    constructor asks for no selected frame and its value is evaluated in
    frame 0, where it fails; [evaluateExpressionValue], in the same state
    and for the same expression, evaluates in frame 1 and succeeds. *)
Lemma init_does_not_resolve_the_selected_frame :
  made_call "GetSelectedFrame" (calls (built false true)) = false /\
  Lldb.selected_frame (world (built false true)) = 1%nat /\
  option_map (Lldb.frame_of (world (built false true)))
    (signalSourceMethodSymbol (self (built false true))) = Some (Some 0%nat) /\
  option_map (Lldb.failed (world (built false true)))
    (signalSourceMethodSymbol (self (built false true))) = Some true /\
  (let (r, s') :=
     run Lldb.lldb_host
       (evaluateExpressionValue (source_symbol_expression "self") true)
       (built false true) in
   match r with
   | inr v =>
       Lldb.frame_of (world s') v = Some 1%nat /\
       Lldb.failed (world s') v = false
   | inl _ => False
   end).
Proof. vm_compute. repeat split. Qed.

(** C3, counterexample: the expression cannot be evaluated in the
    subscriber's frame; the constructor returns, its synthesized field
    carries the error, and nothing has been written to the standard
    output. *)
Lemma init_does_not_report_the_failure :
  fst (run Lldb.lldb_host (__init__ Lldb.subscriber VNone)
         (Lldb.fresh (Lldb.subscriber_world false true))) = inr VNone /\
  option_map (Lldb.failed (world (built false true)))
    (signalSourceMethodSymbol (self (built false true))) = Some true /\
  ~ reported (Lldb.fresh (Lldb.subscriber_world false true)) (built false true).
Proof.
  split; [reflexivity |]. split; [reflexivity |].
  intro H. apply H. reflexivity.
Qed.

(** ** Instances of the conditional theorems *)

Lemma evaluateExpressionValue_resolves_the_frame_anew_witness :
  run Lldb.lldb_host (evaluateExpressionValue "self" true)
    (Lldb.fresh (Lldb.subscriber_world true false)) =
  (inr (VObj SBValue 3),
   snd (run Lldb.lldb_host (evaluateExpressionValue "self" true)
          (Lldb.fresh (Lldb.subscriber_world true false)))) /\
  exists (target process thread frame : value)
         (rest : list (event * (exc + value))),
    calls (snd (run Lldb.lldb_host (evaluateExpressionValue "self" true)
                  (Lldb.fresh (Lldb.subscriber_world true false)))) =
      (calls (Lldb.fresh (Lldb.subscriber_world true false)) ++
       [(Call lldb_debugger "GetSelectedTarget" [], inr target);
        (Call target "GetProcess" [], inr process);
        (Call process "GetSelectedThread" [], inr thread);
        (Call thread "GetSelectedFrame" [], inr frame);
        (Call frame "EvaluateExpression" [VStr "self"], inr (VObj SBValue 3))]
       ++ rest)%list.
Proof.
  split; [reflexivity |].
  apply (proj1 (evaluateExpressionValue_resolves_the_frame_anew
                  Lldb.lldb_host (Lldb.fresh (Lldb.subscriber_world true false))
                  "self" true Lldb.subscriber VNone)).
  reflexivity.
Defined.

Lemma init_keeps_the_value_and_prints_nothing_witness :
  Lldb.failed (world (built false true)) (VObj SBValue 3) = true /\
  fst (run Lldb.lldb_host (__init__ Lldb.subscriber VNone)
         (Lldb.fresh (Lldb.subscriber_world false true))) = inr VNone /\
  self (built false true) =
    mkInstance (Some Lldb.subscriber) (Some (VObj SBValue 3)) /\
  stdout (built false true) = [] /\
  run Lldb.lldb_host (get_child_at_index 0) (built false true) =
    (inr (VObj SBValue 3), built false true).
Proof.
  split; [reflexivity |].
  destruct (init_keeps_the_value_and_prints_nothing
              Lldb.lldb_host Lldb.lldb_host
              (Lldb.fresh (Lldb.subscriber_world false true))
              Lldb.subscriber VNone (VStr "self") (VObj SBValue 3) "self"
              (Lldb.subscriber_world false true) (world (built false true))
              eq_refl eq_refl eq_refl)
    as (Hret & Hself & Hout & Hlater).
  split; [exact Hret |]. split; [exact Hself |]. split; [exact Hout |].
  exact (proj2 (Hlater (built false true) eq_refl)).
Defined.

Lemma get_child_at_index_of_constructed_witness :
  (exists (expression : string) (symbol : value),
     last (calls (built true true)) (Str VNone, inl TypeError) =
       (Call Lldb.subscriber "CreateValueFromExpression"
          [VStr "signalSourceSymbol"; VStr expression], inr symbol) /\
     run Lldb.lldb_host (get_child_at_index 0) (built true true) =
       (inr symbol, built true true)) /\
  run Lldb.lldb_host (get_child_at_index 2) (built true true) =
    (inr (VObj SBValue 2),
     answered (Call Lldb.subscriber "GetChildAtIndex" [VInt (2 - 1)])
       (inr (VObj SBValue 2)) (world (built true true)) (built true true)).
Proof.
  destruct (get_child_at_index_of_constructed
              Lldb.lldb_host Lldb.lldb_host
              (Lldb.fresh (Lldb.subscriber_world true true))
              (built true true) (built true true)
              Lldb.subscriber VNone VNone eq_refl eq_refl)
    as [Hzero Hrest].
  split; [exact Hzero |].
  apply Hrest; [lia | reflexivity].
Defined.

Lemma num_children_is_underlying_count_plus_1_witness :
  run Lldb.lldb_host (call Lldb.subscriber "GetNumChildren" []) (built true true) =
    (inr (VInt 2),
     answered (Call Lldb.subscriber "GetNumChildren" []) (inr (VInt 2))
       (world (built true true)) (built true true)) /\
  run Lldb.lldb_host num_children (built true true) =
    (inr (VInt (2 + 1)),
     answered (Call Lldb.subscriber "GetNumChildren" []) (inr (VInt 2))
       (world (built true true)) (built true true)).
Proof.
  split; [reflexivity |].
  apply (proj1 (num_children_is_underlying_count_plus_1
                  Lldb.lldb_host (built true true) Lldb.subscriber
                  (inr (VInt 2)) (world (built true true)) eq_refl eq_refl)).
  reflexivity.
Defined.

Lemma get_child_at_index_checks_no_bound_witness :
  fst (run Lldb.lldb_host (get_child_at_index (-1)) (built true true)) =
    inl (HostException "OverflowError") /\
  fst (run Lldb.lldb_host (get_child_at_index 7) (built true true)) =
    inr (VObj SBValue 4).
Proof.
  assert (Hneg : -1 <> 0) by lia.
  assert (Hbig : 7 <> 0) by lia.
  split.
  - exact (proj1 (get_child_at_index_checks_no_bound
                    Lldb.lldb_host (built true true) Lldb.subscriber (-1)
                    (inl (HostException "OverflowError"))
                    (world (built true true)) eq_refl Hneg eq_refl)).
  - exact (proj1 (get_child_at_index_checks_no_bound
                    Lldb.lldb_host (built true true) Lldb.subscriber 7
                    (inr (VObj SBValue 4))
                    (world (built true true)) eq_refl Hbig eq_refl)).
Defined.

(** * Further properties of the script *)

(** Destructs, in hypothesis [H], the next answer of the debugger or the
    next value or test the code branches on, keeping the equation. *)
Ltac next_answer_in H :=
  match type of H with
  | context [match ?x with (_, _) => _ end] =>
      match x with
      | context [match _ with _ => _ end] => fail 1
      | _ => let E := fresh "Ans" in destruct x as [[?e | ?v] ?w] eqn:E
      end
  | context [match ?x with VNone => _ | _ => _ end] =>
      match x with
      | context [match _ with _ => _ end] => fail 1
      | _ => destruct x
      end
  | context [if ?b then _ else _] =>
      match b with
      | context [match _ with _ => _ end] => fail 1
      | _ => let E := fresh "Test" in destruct b eqn:E
      end
  end.

Ltac run_all_in H :=
  unfold py_format, py_str, py_add, call, self_get, self_set, print_line in H;
  simpl in H;
  repeat (next_answer_in H; simpl in H; try discriminate H).

Section Further.

Context {W : Type}.


(** ** [evaluateExpressionValue] *)

(** X1: With [printErrors] false the function asks for no error and prints
    nothing, whatever the debugger answers and however the run ends: it
    makes at most the five calls that resolve the frame and evaluate. *)
Theorem evaluateExpressionValue_without_printErrors
  (h : host W) (s : state W) (expression : string) :
  stdout (snd (run h (evaluateExpressionValue expression false) s)) = stdout s /\
  exists l : list (event * (exc + value)),
    calls (snd (run h (evaluateExpressionValue expression false) s)) =
      (calls s ++ l)%list /\
    made_call "GetError" l = false /\
    (length l <= 5)%nat.
Proof.
  unfold evaluateExpressionValue. run_all; (split; [reflexivity |]);
    repeat rewrite <- app_assoc; simpl.
  all: match goal with
       | |- context [(calls _ ++ ?L)%list = _] => exists L
       end; simpl; repeat split; lia.
Qed.


(** X2: With [printErrors] true and an [SBError] whose text is not [success],
    the returned value's error text is the one line printed; when the text
    is [success] nothing is printed.  The value is returned either way. *)
Theorem evaluateExpressionValue_prints_the_error
  (h : host W) (s s' : state W) (expression : string) (v : value)
  (x : nat) (text : W -> string) :
  run h (evaluateExpressionValue expression true) s = (inr v, s') ->
  (forall w : W, h (Call v "GetError" []) w = (inr (VObj SBError x), w)) ->
  (forall w : W, h (Str (VObj SBError x)) w = (inr (VStr (text w)), w)) ->
  stdout s' =
    (stdout s ++
     (if (text (world s') =? "success")%string then [] else [text (world s')]))%list.
Proof.
  intros H Hget Hstr. unfold evaluateExpressionValue in H.
  run_all_in H; inversion H; subst; clear H;
    repeat match goal with
      | A : h (Call _ "GetError" []) _ = _ |- _ =>
          rewrite Hget in A; inversion A; subst; clear A
      | A : h (Str _) _ = _ |- _ =>
          rewrite Hstr in A; inversion A; subst; clear A
      end; simpl; try discriminate.
  all: match goal with
       | T : negb ?b = _ |- _ =>
           revert T; destruct b; simpl; intro T; try discriminate T
       end.
  all: rewrite ?app_nil_r; reflexivity.
Qed.



(** ** The constructor *)

(** X6: For a handle whose name prints as [t] (a [str], or [None] for a value
    without a name, which prints as [None]), the constructor makes two
    calls, both on the handle it was given: [GetName()], then
    [CreateValueFromExpression] with the child's name [signalSourceSymbol]
    and the message send to [t]. *)
Theorem init_sends_the_message_to_the_named_handle
  (h : host W) (s : state W) (v dict name : value) (t : string) (w1 : W) :
  h (Call v "GetName" []) (world s) = (inr name, w1) ->
  text_of name = Some t ->
  calls (snd (run h (__init__ v dict) s)) =
    (calls s ++
     [(Call v "GetName" [], inr name);
      (Call v "CreateValueFromExpression"
         [VStr "signalSourceSymbol";
          VStr ("(NSString *)[" ++ t ++ " signalInitializationSourceSymbol]")],
       fst (h (Call v "CreateValueFromExpression"
                 [VStr "signalSourceSymbol";
                  VStr ("(NSString *)[" ++ t ++
                        " signalInitializationSourceSymbol]")]) w1))])%list.
Proof.
  intros Hname Htext.
  unfold __init__, py_format, py_str, call, self_set, self_get,
    SIGNAL_SOURCE_SYMBOL_CHILD_NAME.
  simpl. rewrite Hname.
  destruct name; simpl in Htext; inversion Htext; subst; simpl;
    match goal with
    | |- context [match ?x with (_, _) => _ end] => destruct x as [[e | r] w2]
    end; simpl; rewrite <- app_assoc; reflexivity.
Qed.


(** ** [get_child_index] for the other names *)

(** X9: For a name other than [signalSourceSymbol] the method makes the one
    call [GetChildMemberWithName(name)] on the handle and adds 1 to the
    answer: an exception of the call is handed through as it is, an [int]
    answer [k] gives [k + 1], and any other answer (a [str], [None], an
    object of the debugger) ends in [TypeError]. *)
Theorem get_child_index_of_another_name
  (h : host W) (s : state W) (v : value) (name : string)
  (r : exc + value) (w : W) :
  valobj (self s) = Some v ->
  (name =? "signalSourceSymbol")%string = false ->
  h (Call v "GetChildMemberWithName" [VStr name]) (world s) = (r, w) ->
  run h (get_child_index name) s =
  (match r with
   | inl e => inl e
   | inr a =>
       match as_int a with
       | Some k => inr (VInt (k + 1))
       | None => inl TypeError
       end
   end,
   answered (Call v "GetChildMemberWithName" [VStr name]) r w s).
Proof.
  intros Hv Hname Hh. unfold get_child_index, SIGNAL_SOURCE_SYMBOL_CHILD_NAME.
  rewrite Hname. simpl. rewrite Hv. simpl. rewrite Hh.
  destruct r as [e | a]; [reflexivity |].
  destruct a; reflexivity.
Qed.

(** ** Registration *)

(** X10: [__lldb_init_module] makes one call, whatever its two arguments are:
    [HandleCommand] on the module's [lldb.debugger], with the command that
    adds the class as the synthetic provider of [RACPassthroughSubscriber].
    It returns [None] when the command is accepted, hands an exception
    through, prints nothing and assigns nothing. *)
Theorem lldb_init_module_registers_the_provider
  (h : host W) (s : state W) (debugger dict : value)
  (r : exc + value) (w : W) :
  h (Call lldb_debugger "HandleCommand"
       [VStr "type synthetic add RACPassthroughSubscriber --python-class rac_signal_source_symbol_tracer.RACSignalSourceSymbolTracer"])
    (world s) = (r, w) ->
  run h (__lldb_init_module debugger dict) s =
  (match r with
   | inl e => inl e
   | inr _ => inr VNone
   end,
   answered
     (Call lldb_debugger "HandleCommand"
        [VStr "type synthetic add RACPassthroughSubscriber --python-class rac_signal_source_symbol_tracer.RACSignalSourceSymbolTracer"])
     r w s).
Proof.
  intro Hh. unfold __lldb_init_module, call. simpl.
  simpl in Hh. rewrite Hh. destruct r; reflexivity.
Qed.

(** ** What no method does *)

(** X8: However it ends, the constructor writes nothing to the standard output
    and asks the debugger at most three things (the name, its [str] when it
    is an object, the value). *)
Theorem init_prints_nothing (h : host W) (s : state W) (v dict : value) :
  stdout (snd (run h (__init__ v dict) s)) = stdout s /\
  exists l : list (event * (exc + value)),
    calls (snd (run h (__init__ v dict) s)) = (calls s ++ l)%list /\
    (length l <= 3)%nat.
Proof.
  unfold __init__. run_all; (split; [reflexivity |]);
    repeat rewrite <- app_assoc; simpl.
  all: match goal with
       | |- context [(calls _ ++ ?L)%list = _] => exists L
       end; simpl; split; [reflexivity | lia].
Qed.

(** X11: However they end, the accessors write nothing to the standard output,
    and each one asks the debugger at most one thing; [update],
    [has_children], [get_child_index] of the synthesized name and
    [get_child_at_index(0)] ask nothing and leave the whole state as it
    is. *)
Theorem accessors_print_nothing
  (h : host W) (s : state W) (name : string) (index : Z) :
  asks_at_most 1 h num_children s /\
  asks_at_most 1 h (get_child_index name) s /\
  asks_at_most 1 h (get_child_at_index index) s /\
  snd (run h update s) = s /\
  snd (run h has_children s) = s /\
  snd (run h (get_child_index "signalSourceSymbol") s) = s /\
  snd (run h (get_child_at_index 0) s) = s.
Proof.
  assert (Hquiet : forall p : prog value,
             p = num_children \/ p = get_child_index name \/
             p = get_child_at_index index ->
             asks_at_most 1 h p s).
  { intros p [-> | [-> | ->]];
      unfold asks_at_most, num_children, get_child_index, get_child_at_index;
      run_all;
      repeat (match goal with
              | |- context [match ?x with Some _ => _ | None => _ end] =>
                  destruct x
              end; run_all);
      (split; [reflexivity |]).
    all: first [ exists []; rewrite app_nil_r; split; [reflexivity | simpl; lia]
               | eexists; split; [reflexivity | simpl; lia] ]. }
  repeat split; try (apply Hquiet; tauto).
  rewrite get_child_at_index_0.
  destruct (signalSourceMethodSymbol (self s)); reflexivity.
Qed.

End Further.

(** ** Instances of the conditional theorems above *)

Lemma evaluateExpressionValue_prints_the_error_witness :
  stdout (snd (run Lldb.lldb_host (evaluateExpressionValue "self" true)
                 (Lldb.fresh (Lldb.subscriber_world true false)))) =
  ["error: no known method '-signalInitializationSourceSymbol'"].
Proof.
  apply (evaluateExpressionValue_prints_the_error
           Lldb.lldb_host (Lldb.fresh (Lldb.subscriber_world true false))
           (snd (run Lldb.lldb_host (evaluateExpressionValue "self" true)
                   (Lldb.fresh (Lldb.subscriber_world true false))))
           "self" (VObj SBValue 3) 3 (fun w => Lldb.error_of w 3)).
  - reflexivity.
  - intro w. unfold Lldb.lldb_host, Lldb.value_method.
    destruct (nth_error (Lldb.values w) 3); reflexivity.
  - intro w. reflexivity.
Defined.



Lemma init_sends_the_message_to_the_named_handle_witness :
  calls (built true true) =
  [(Call Lldb.subscriber "GetName" [], inr (VStr "self"));
   (Call Lldb.subscriber "CreateValueFromExpression"
      [VStr "signalSourceSymbol";
       VStr "(NSString *)[self signalInitializationSourceSymbol]"],
    inr (VObj SBValue 3))].
Proof.
  exact (init_sends_the_message_to_the_named_handle
           Lldb.lldb_host (Lldb.fresh (Lldb.subscriber_world true true))
           Lldb.subscriber VNone (VStr "self") "self"
           (Lldb.subscriber_world true true) eq_refl eq_refl).
Defined.


Lemma get_child_index_of_another_name_witness :
  fst (run Lldb.lldb_host (get_child_index "a") (built true true)) =
  inl TypeError.
Proof.
  exact (f_equal fst
           (get_child_index_of_another_name
              Lldb.lldb_host (built true true) Lldb.subscriber "a"
              (inr (VObj SBValue 1)) (world (built true true))
              eq_refl eq_refl eq_refl)).
Defined.

Lemma lldb_init_module_registers_the_provider_witness :
  Lldb.commands
    (world (snd (run Lldb.lldb_host (__lldb_init_module lldb_debugger VNone)
                   (Lldb.fresh (Lldb.subscriber_world true true))))) =
  ["type synthetic add RACPassthroughSubscriber --python-class rac_signal_source_symbol_tracer.RACSignalSourceSymbolTracer"].
Proof.
  exact (f_equal (fun x => Lldb.commands (world (snd x)))
           (lldb_init_module_registers_the_provider
              Lldb.lldb_host (Lldb.fresh (Lldb.subscriber_world true true))
              lldb_debugger VNone (inr VNone)
              (Lldb.mkWorld
                 (Lldb.values (Lldb.subscriber_world true true))
                 (Lldb.frames (Lldb.subscriber_world true true))
                 (Lldb.selected_frame (Lldb.subscriber_world true true))
                 ["type synthetic add RACPassthroughSubscriber --python-class rac_signal_source_symbol_tracer.RACSignalSourceSymbolTracer"])
              eq_refl)).
Defined.
